(** * bt_nodes: behaviour-tree leaves for navigation and perception

    A shallow embedding of two BehaviorTree.CPP nodes,

    - [perception.IsInFront] (a [BT::ConditionNode]): the bearing gate,
    - [navigation.NavigateTo] (a [motion::BtActionNode]): goal resolution
      and the finish-or-continue decision after each terminal outcome,

    together with the properties of their decision logic.

    C++ [double] is IEEE-754 binary64, modelled by [spec_float] with
    [prec = 53] and [emax = 1024].  Member variables become record fields
    and every method is a function from the object to the updated object.
    Calls into collaborators the nodes do not own (tf2, the perception
    listener, the service client, the action client) are answered by
    section variables and recorded, in program order, in a call log.
    Logging macros have no effect on the decisions and are left out. *)

From Stdlib Require Import ZArith Bool List.
From Stdlib Require Import Floats.SpecFloat.
From stdpp Require Import base option strings gmap.
Import ListNotations.

Open Scope string_scope.

(** ** IEEE-754 binary64 *)

Module Double.

Definition prec : Z := 53.
Definition emax : Z := 1024.

Definition double : Type := spec_float.

(** Conversion of an integer literal, as in [yaw > 0]. *)
Definition of_Z (n : Z) : double := binary_normalize prec emax n 0 false.

Definition mul : double -> double -> double := SFmul prec emax.
Definition div : double -> double -> double := SFdiv prec emax.
Definition abs : double -> double := SFabs.
(** [gt a b] is the C++ comparison [a > b]; it is false on NaN. *)
Definition gt (a b : double) : bool := SFltb b a.
Definition lt (a b : double) : bool := SFltb a b.
Definition le (a b : double) : bool := SFleb a b.

Definition zero : double := S754_zero false.
Definition one : double := Eval cbv in of_Z 1.
Definition five : double := Eval cbv in of_Z 5.
Definition d180 : double := Eval cbv in of_Z 180.
(** [M_PI] of <cmath>: 0x400921FB54442D18. *)
Definition M_PI : double := S754_finite false 7074237752028440 (-51).

Definition valid (d : double) : bool := valid_binary prec emax d.

End Double.

Export Double(double).

(** ** The BehaviorTree.CPP interface the nodes use *)

Module BT.

Inductive NodeStatus := IDLE | RUNNING | SUCCESS | FAILURE.

(** The value found behind an input port, after remapping. *)
Inductive port_value :=
| PString (s : string)
| PBool (b : bool)
| PDouble (d : double).

(** [convertFromString<T>] / [Any::cast<T>]: which port values a
    destination of type [T] accepts. *)
Class FromPort (T : Type) := from_port : port_value -> option T.

#[global] Instance FromPort_string : FromPort string :=
  fun v => match v with PString s => Some s | _ => None end.
#[global] Instance FromPort_bool : FromPort bool :=
  fun v => match v with PBool b => Some b | _ => None end.
#[global] Instance FromPort_double : FromPort double :=
  fun v => match v with PDouble d => Some d | _ => None end.

(** [getInput(key, destination)].  The nodes below never look at the
    returned [Result], so only the destination is modelled: it receives
    the port's value when the port is there and converts, and keeps what
    it held otherwise. *)
Definition getInput {T} `{FromPort T}
    (ports : gmap string port_value) (key : string) (destination : T) : T :=
  match ports !! key with
  | Some v => match from_port v with Some t => t | None => destination end
  | None => destination
  end.

(** [Blackboard::get(key, value)]: [value] is overwritten when the entry
    exists and kept otherwise. *)
Definition blackboard_get {T} (blackboard : gmap string T) (key : string)
    (value : T) : T :=
  match blackboard !! key with
  | Some v => v
  | None => value
  end.

End BT.

Export BT(NodeStatus, IDLE, RUNNING, SUCCESS, FAILURE,
          port_value, PString, PBool, PDouble, getInput, blackboard_get).

(** ** ROS message types (the fields the nodes touch) *)

Module Point.
Record t := mk { x : double; y : double; z : double }.
Definition default : t := mk Double.zero Double.zero Double.zero.
End Point.

Module Quaternion.
Record t := mk { x : double; y : double; z : double; w : double }.
(** geometry_msgs/Quaternion declares the defaults x=0 y=0 z=0 w=1. *)
Definition default : t := mk Double.zero Double.zero Double.zero Double.one.
End Quaternion.

Module Pose.
Record t := mk { position : Point.t; orientation : Quaternion.t }.
Definition default : t := mk Point.default Quaternion.default.
End Pose.

Module PoseStamped.
Record t := mk { frame_id : string; pose : Pose.t }.
Definition default : t := mk "" Pose.default.
End PoseStamped.

Module Transform.
Record t := mk { translation : Point.t; rotation : Quaternion.t }.
Definition default : t := mk Point.default Quaternion.default.
End Transform.

Module TransformStamped.
Record t := mk { frame_id : string; child_frame_id : string;
                 transform : Transform.t }.
Definition default : t := mk "" "" Transform.default.
End TransformStamped.

Module Detection.
(** perception_system_interfaces/Detection *)
Record t := mk { class_name : string; score : double; center3d : Pose.t }.
Definition default : t := mk "" Double.zero Pose.default.
End Detection.

(** ** perception::IsInFront *)

Module perception.

Record IsInFront := mkIsInFront {
  target_ : string;
  confidence_ : double;
  entity_ : string
}.

(** What one [tick] leaves behind besides its return value. *)
Record Effects := mkEffects {
  outputs : list (string * Z);              (* setOutput, in order *)
  published : list (Detection.t * string)   (* publishTF, in order *)
}.

Definition no_effects : Effects := mkEffects [] [].

Definition setOutput (key : string) (v : Z) (eff : Effects) : Effects :=
  mkEffects (outputs eff ++ [(key, v)]) (published eff).

Definition publishTF (d : Detection.t) (entity : string) (eff : Effects)
  : Effects :=
  mkEffects (outputs eff) (published eff ++ [(d, entity)]).

(** The constructor.  [confidence0] is what the member [confidence_]
    holds before the read; the string members start empty.  The second
    component lists the [add_activation] calls on the node. *)
Definition IsInFront_new (confidence0 : double)
    (ports : gmap string port_value) : IsInFront * list string :=
  let what := "" in
  let target := getInput ports "target" "" in
  let confidence := getInput ports "conficende" confidence0 in
  let what := getInput ports "what" what in
  let entity := getInput ports "entity_to_identify" "" in
  let self := mkIsInFront target confidence entity in
  if String.eqb what "person" then
    (self, ["perception_system/perception_people_detection"])
  else if String.eqb what "object" then
    (self, ["perception_system/perception_object_detection"])
  else
    (self, ["perception_system/perception_object_detection"]).

Section Tick.

(** [atan2] of <cmath>. *)
Variable atan2 : double -> double -> double.
(** [PerceptionListener::get_by_features], as it answers during this
    tick (after [spin_some]). *)
Variable get_by_features : Detection.t -> double -> list Detection.t.

(** The bearing of a detection in degrees, as [tick] computes it. *)
Definition yaw_of (detection : Detection.t) : double :=
  let yaw := atan2 (Point.y (Pose.position (Detection.center3d detection)))
                   (Point.x (Pose.position (Detection.center3d detection))) in
  Double.div (Double.mul yaw Double.d180) Double.M_PI.

Definition tick (self : IsInFront) (blackboard : gmap string Detection.t)
  : NodeStatus * Effects :=
  let eff := no_effects in
  let detection := Detection.default in
  let detection := blackboard_get blackboard (target_ self) detection in
  let detections := get_by_features detection (confidence_ self) in
  match detections with
  | [] =>
      let eff := setOutput "direction" (-1) eff in
      (FAILURE, eff)
  | detection :: _ =>
      let yaw := yaw_of detection in
      if Double.gt (Double.abs yaw) Double.five then
        if Double.gt yaw (Double.of_Z 0) then
          let eff := setOutput "direction" 1 eff in
          (FAILURE, eff)
        else
          let eff := setOutput "direction" (-1) eff in
          (FAILURE, eff)
      else
        let eff := publishTF detection (entity_ self) eff in
        let eff := setOutput "direction" 0 eff in
        (SUCCESS, eff)
  end.

End Tick.

End perception.

(** ** navigation::NavigateTo *)

Module navigation.

(** nav2_msgs/action/NavigateToPose, the goal part. *)
Record Goal := mkGoal {
  pose : PoseStamped.t;
  behavior_tree : string
}.

Definition Goal_default : Goal := mkGoal PoseStamped.default "".

(** Calls that leave the node, in program order. *)
Inductive Call :=
| LookupTransform (target_frame source_frame : string)
| WaitForService
| GenerateXmlFile (template : string) (distance_tolerance : double)
| NewGoalReceived (goal : Goal).

(** The members of [NavigateTo] and of its base [BtActionNode] that the
    methods below read or write. *)
Record NavigateTo := mkNavigateTo {
  status_ : NodeStatus;       (* BT::TreeNode status, written by setStatus *)
  will_finish_ : bool;
  goal_updated_ : bool;
  goal_ : Goal;
  calls : list Call
}.

Definition setStatus (s : NodeStatus) (self : NavigateTo) : NavigateTo :=
  mkNavigateTo s (will_finish_ self) (goal_updated_ self) (goal_ self)
               (calls self).

Definition set_will_finish (b : bool) (self : NavigateTo) : NavigateTo :=
  mkNavigateTo (status_ self) b (goal_updated_ self) (goal_ self) (calls self).

Definition set_goal_updated (b : bool) (self : NavigateTo) : NavigateTo :=
  mkNavigateTo (status_ self) (will_finish_ self) b (goal_ self) (calls self).

Definition set_goal (g : Goal) (self : NavigateTo) : NavigateTo :=
  mkNavigateTo (status_ self) (will_finish_ self) (goal_updated_ self) g
               (calls self).

Definition call (c : Call) (self : NavigateTo) : NavigateTo :=
  mkNavigateTo (status_ self) (will_finish_ self) (goal_updated_ self)
               (goal_ self) (calls self ++ [c]).

(** [on_tick] declares [bool is_truncated] and [double distance_tolerance]
    without initialising them; when the port read does not overwrite them
    they hold whatever this record says. *)
Record Uninitialised := mkUninitialised {
  is_truncated0 : bool;
  distance_tolerance0 : double
}.

(** [BtActionNode::on_new_goal_received] hands the current [goal_] to the
    action client.  The base class is not among the sources; the call is
    recorded with the goal it sends. *)
Definition on_new_goal_received (self : NavigateTo) : NavigateTo :=
  call (NewGoalReceived (goal_ self)) self.

Section Collaborators.

(** [tf2_ros::Buffer::lookupTransform(target, source, TimePointZero)];
    [None] stands for a thrown [tf2::TransformException]. *)
Variable lookupTransform : string -> string -> option TransformStamped.t.

(** Modelled from the spec: [generate_xml_file] and the template
    [nav_to_pose_truncated_xml] are declared outside the sources.  The
    artifact reference is "a deterministic template instantiation keyed
    only by the tolerance value", that is, a function of the template and
    the tolerance. *)
Variable generate_xml_file : string -> double -> string.
Variable nav_to_pose_truncated_xml : string.

(** One run of [on_tick].  [ports] are the input ports as they read
    during the run and [service_ready] is the answer of
    [wait_for_service(1s)]. *)
Definition on_tick (ports : gmap string port_value) (service_ready : bool)
    (u : Uninitialised) (self : NavigateTo) : NavigateTo :=
  let goal := PoseStamped.default in
  let map_to_goal := TransformStamped.default in
  let is_truncated := is_truncated0 u in
  let tf_frame := getInput ports "tf_frame" "" in
  let self := set_will_finish
                (getInput ports "will_finish" (will_finish_ self)) self in
  let is_truncated := getInput ports "is_truncated" is_truncated in
  let '(goal, self) :=
    if (0 <? String.length tf_frame)%nat then
      let self := call (LookupTransform "map" tf_frame) self in
      let '(map_to_goal, self) :=
        match lookupTransform "map" tf_frame with
        | Some t => (t, self)
        | None => (map_to_goal, setStatus RUNNING self)
        end in
      let tr := Transform.translation (TransformStamped.transform map_to_goal) in
      let rot := Transform.rotation (TransformStamped.transform map_to_goal) in
      let position :=
        Point.mk (Point.x tr) (Point.y tr)
                 (Point.z (Pose.position (PoseStamped.pose goal))) in
      let orientation :=
        Quaternion.mk (Quaternion.x rot) (Quaternion.y rot)
                      (Quaternion.z rot) (Quaternion.w rot) in
      (PoseStamped.mk (PoseStamped.frame_id goal)
                      (Pose.mk position orientation), self)
    else
      let p := Pose.position (PoseStamped.pose goal) in
      let x := getInput ports "x" (Point.x p) in
      let y := getInput ports "y" (Point.y p) in
      let position := Point.mk x y (Point.z p) in
      let orientation :=
        Quaternion.mk Double.zero Double.zero Double.zero Double.one in
      (PoseStamped.mk (PoseStamped.frame_id goal)
                      (Pose.mk position orientation), self) in
  let goal := PoseStamped.mk "map" (PoseStamped.pose goal) in
  let self := call WaitForService self in
  let self := if negb service_ready then setStatus RUNNING self else self in
  let self :=
    if is_truncated then
      let distance_tolerance :=
        getInput ports "distance_tolerance" (distance_tolerance0 u) in
      let self := call (GenerateXmlFile nav_to_pose_truncated_xml
                                        distance_tolerance) self in
      let xml_path :=
        generate_xml_file nav_to_pose_truncated_xml distance_tolerance in
      set_goal (mkGoal (pose (goal_ self)) xml_path) self
    else self in
  set_goal (mkGoal goal (behavior_tree (goal_ self))) self.

Definition on_success ports service_ready u (self : NavigateTo)
  : NodeStatus * NavigateTo :=
  if will_finish_ self then (SUCCESS, self)
  else
    let self := set_goal_updated true self in
    let self := on_tick ports service_ready u self in
    let self := on_new_goal_received self in
    (RUNNING, self).

Definition on_aborted ports service_ready u (self : NavigateTo)
  : NodeStatus * NavigateTo :=
  if will_finish_ self then (FAILURE, self)
  else
    let self := on_tick ports service_ready u self in
    let self := on_new_goal_received self in
    (RUNNING, self).

Definition on_cancelled ports service_ready u (self : NavigateTo)
  : NodeStatus * NavigateTo :=
  if will_finish_ self then (SUCCESS, self)
  else
    let self := on_tick ports service_ready u self in
    let self := on_new_goal_received self in
    (RUNNING, self).

(** The terminal outcomes the action client reports, and the handler
    [BtActionNode::tick] runs for each. *)
Inductive Outcome := Succeeded | Aborted | Cancelled.

Definition on_outcome (o : Outcome) :=
  match o with
  | Succeeded => on_success
  | Aborted => on_aborted
  | Cancelled => on_cancelled
  end.

(** The continuation rule in the words of the design, not of the source:
    re-run the goal resolver, mark the goal as updated, notify the action
    client that a new goal is available, report RUNNING.  The three
    handlers above are compared with it. *)
Definition spec_continuation_rule ports service_ready u (self : NavigateTo)
  : NodeStatus * NavigateTo :=
  let self := on_tick ports service_ready u self in
  let self := set_goal_updated true self in
  let self := on_new_goal_received self in
  (RUNNING, self).

End Collaborators.

End navigation.

(** ** Concrete inputs used to exercise the definitions *)

Module Samples.

Definition dbl (negative : bool) (m : positive) (e : Z) : double :=
  S754_finite negative m e.

Definition two : double := Eval cbv in Double.of_Z 2.
Definition three : double := Eval cbv in Double.of_Z 3.
Definition half : double := dbl false 4503599627370496 (-53).

(** Radians whose conversion to degrees is exactly 5.0, the next double
    above it, and the doubles for +10 and -10 degrees. *)
Definition rad_5deg : double := dbl false 6288211335136391 (-56).
Definition rad_above_5deg : double := dbl false 6288211335136392 (-56).
Definition rad_10deg : double := dbl false 6288211335136391 (-55).
Definition rad_minus_10deg : double := dbl true 6288211335136391 (-55).

Definition detection_at (x y : double) : Detection.t :=
  Detection.mk "person" half
    (Pose.mk (Point.mk x y Double.zero) Quaternion.default).

(** An [atan2] that answers [r] whatever it is asked. *)
Definition atan2_const (r : double) : double -> double -> double :=
  fun _ _ => r.

(** A perception listener that reports the given detections. *)
Definition listener (ds : list Detection.t)
  : Detection.t -> double -> list Detection.t :=
  fun _ _ => ds.

Definition gate : perception.IsInFront :=
  perception.mkIsInFront "person_0" half "person".

Definition gate_ports : gmap string port_value :=
  <["target" := PString "person_0"]>
  (<["conficende" := PDouble half]>
  (<["what" := PString "person"]>
  (<["entity_to_identify" := PString "person"]> ∅))).

(** Navigation: a frame lookup that always throws, one that always
    answers, and a template instantiation that names the file after the
    template. *)
Definition lookup_fails : string -> string -> option TransformStamped.t :=
  fun _ _ => None.

Definition kitchen_transform : TransformStamped.t :=
  TransformStamped.mk "map" "kitchen"
    (Transform.mk (Point.mk two three Double.one)
                  (Quaternion.mk Double.zero Double.zero Double.one Double.zero)).

Definition lookup_answers : string -> string -> option TransformStamped.t :=
  fun _ _ => Some kitchen_transform.

Definition xml_named_after_template : string -> double -> string :=
  fun template _ => String.append template ".xml".

Definition template_xml : string := "nav_to_pose_truncated".

Definition pose_at (x y : double) : PoseStamped.t :=
  PoseStamped.mk "map" (Pose.mk (Point.mk x y Double.zero) Quaternion.default).

(** A node whose stored goal is the pose (2, 3) with no behaviour tree. *)
Definition node_at_2_3 : navigation.NavigateTo :=
  navigation.mkNavigateTo IDLE true false
    (navigation.mkGoal (pose_at two three) "") [].

(** A fresh node that keeps navigating after each outcome. *)
Definition node_continuing : navigation.NavigateTo :=
  navigation.mkNavigateTo IDLE false false navigation.Goal_default [].

(** A node that finishes on the first outcome. *)
Definition node_finishing : navigation.NavigateTo :=
  navigation.mkNavigateTo RUNNING true false navigation.Goal_default [].

(** A node whose stored goal still carries the behaviour tree of an
    earlier truncated goal. *)
Definition node_after_truncated : navigation.NavigateTo :=
  navigation.mkNavigateTo IDLE false false
    (navigation.mkGoal (pose_at Double.zero Double.zero)
                       "nav_to_pose_truncated.xml") [].

Definition ports_frame : gmap string port_value :=
  <["tf_frame" := PString "kitchen"]>
  (<["will_finish" := PBool true]>
  (<["is_truncated" := PBool false]> ∅)).

Definition ports_xy : gmap string port_value :=
  <["tf_frame" := PString ""]>
  (<["x" := PDouble two]>
  (<["y" := PDouble three]>
  (<["will_finish" := PBool false]>
  (<["is_truncated" := PBool false]> ∅)))).

Definition ports_truncated : gmap string port_value :=
  <["is_truncated" := PBool true]>
  (<["distance_tolerance" := PDouble half]> ports_xy).

Definition locals : navigation.Uninitialised :=
  navigation.mkUninitialised false Double.zero.

Definition other_locals : navigation.Uninitialised :=
  navigation.mkUninitialised true Double.one.

End Samples.

(** ** Outcomes delivered one after the other *)

Module lifecycle.

(** One terminal outcome as the action client delivers it, with the ports,
    the answer of the service and the uninitialised locals as they are when
    its handler runs. *)
Record Delivery := mkDelivery {
  outcome : navigation.Outcome;
  ports_then : gmap string port_value;
  service_ready_then : bool;
  locals_then : navigation.Uninitialised
}.

Section Deliver.

Variable lookupTransform : string -> string -> option TransformStamped.t.
Variable generate_xml_file : string -> double -> string.
Variable nav_to_pose_truncated_xml : string.

(** The handlers run for a list of deliveries, each on the node the one
    before left; the statuses they return are collected in order. *)
Fixpoint deliver (ds : list Delivery) (self : navigation.NavigateTo)
  : list NodeStatus * navigation.NavigateTo :=
  match ds with
  | [] => ([], self)
  | d :: ds =>
      let '(status, self) :=
        navigation.on_outcome lookupTransform generate_xml_file
          nav_to_pose_truncated_xml (outcome d) (ports_then d)
          (service_ready_then d) (locals_then d) self in
      let '(statuses, self) := deliver ds self in
      (status :: statuses, self)
  end.

End Deliver.

Definition is_new_goal (c : navigation.Call) : bool :=
  match c with
  | navigation.NewGoalReceived _ => true
  | _ => false
  end.

(** How many goals a call log hands to the action client. *)
Definition dispatches (cs : list navigation.Call) : nat :=
  length (List.filter is_new_goal cs).

End lifecycle.

(** ** Further concrete inputs *)

Module MoreSamples.

Definition nan : double := S754_nan.

Definition minus_one : double := Eval cbv in Double.of_Z (-1).

(** Ports naming a frame and carrying coordinates as well. *)
Definition ports_frame_and_xy : gmap string port_value :=
  <["x" := PDouble Samples.two]>
  (<["y" := PDouble Samples.three]> Samples.ports_frame).

(** Empty frame and no coordinates at all. *)
Definition ports_no_coordinates : gmap string port_value :=
  <["tf_frame" := PString ""]> (<["is_truncated" := PBool false]> ∅).

(** A truncated goal whose tolerance port is missing. *)
Definition ports_truncated_no_tolerance : gmap string port_value :=
  <["is_truncated" := PBool true]> Samples.ports_xy.

(** The coordinates (2, 3), with the finish flag now requested. *)
Definition ports_xy_finish : gmap string port_value :=
  <["will_finish" := PBool true]> Samples.ports_xy.

Definition three_deliveries : list lifecycle.Delivery :=
  [lifecycle.mkDelivery navigation.Succeeded Samples.ports_xy true
     Samples.locals;
   lifecycle.mkDelivery navigation.Aborted Samples.ports_truncated false
     Samples.other_locals;
   lifecycle.mkDelivery navigation.Cancelled Samples.ports_xy true
     Samples.locals].

(** A continuing node whose [goal_updated_] is raised. *)
Definition node_updated : navigation.NavigateTo :=
  navigation.mkNavigateTo RUNNING false true navigation.Goal_default [].

(** An odd stand-in for [atan2]: the angle is the y it is given. *)
Definition atan2_is_y : double -> double -> double :=
  fun y _ => y.

Definition detection_left : Detection.t :=
  Samples.detection_at Double.one Samples.rad_10deg.

Definition detection_right : Detection.t :=
  Samples.detection_at Double.one Samples.rad_minus_10deg.

End MoreSamples.

(** ** Proof automation *)

(** Splits a goal about [navigation.on_tick] along the branches the method
    takes: the length test on "tf_frame", the outcome of the frame lookup,
    the readiness of the service and the truncation flag. *)
Ltac on_tick_cases :=
  unfold navigation.on_tick; cbv zeta; cbn [negb];
  repeat match goal with
         | |- context [if negb ?c then _ else _] => destruct c; cbn [negb]
         | |- context [if ?c then _ else _] => destruct c eqn:?
         | |- context [match ?o with Some _ => _ | None => _ end] =>
             destruct o eqn:?
         end;
  cbn.

(** * Properties *)

(** ** Order facts about binary64 comparisons *)

Lemma SFcompare_antisym (x y : spec_float) (c : comparison) :
  SFcompare x y = Some c -> SFcompare y x = Some (CompOpp c).
Proof.
  destruct x as [sx|sx| |sx mx ex], y as [sy|sy| |sy my ey]; simpl;
    try discriminate; intros [= <-]; f_equal;
    try (destruct sx; reflexivity); try (destruct sy; reflexivity);
    try (destruct sx, sy; reflexivity).
  rewrite (Z.compare_antisym ex ey).
  assert (Hm : Pos.compare_cont Eq my mx = CompOpp (Pos.compare_cont Eq mx my))
    by apply (Pos.compare_antisym mx my).
  rewrite Hm.
  destruct sx, sy, (ex ?= ey)%Z; simpl; reflexivity.
Qed.

Lemma Double_le_not_gt (a b : double) :
  Double.le a b = true -> Double.gt a b = false.
Proof.
  unfold Double.le, Double.gt, SFleb, SFltb.
  destruct (SFcompare a b) as [c|] eqn:E; [|discriminate].
  rewrite (SFcompare_antisym _ _ _ E).
  destruct c; simpl; congruence.
Qed.

Lemma Double_lt_not_gt (a b : double) :
  Double.lt a b = true -> Double.gt a b = false.
Proof.
  unfold Double.lt, Double.gt, SFltb.
  destruct (SFcompare a b) as [c|] eqn:E; [|discriminate].
  rewrite (SFcompare_antisym _ _ _ E).
  destruct c; simpl; congruence.
Qed.

(** The constants above and the sample doubles are canonical binary64
    values, so the exponent-first comparison of [SFcompare] orders them as
    the hardware does. *)
Example constants_valid :
  forallb Double.valid
    [Double.zero; Double.one; Double.five; Double.d180; Double.M_PI;
     Samples.two; Samples.three; Samples.half; Samples.rad_5deg;
     Samples.rad_above_5deg; Samples.rad_10deg; Samples.rad_minus_10deg]
  = true.
Proof. vm_compute. reflexivity. Qed.

(** ** The bearing gate *)

Section BearingGate.

Import perception.

Variable atan2 : double -> double -> double.
Variable get_by_features : Detection.t -> double -> list Detection.t.

Local Abbreviation tick := (perception.tick atan2 get_by_features).
Local Abbreviation yaw_of := (perception.yaw_of atan2).

(** The detection [tick] hands to the perception listener as template. *)
Local Abbreviation template self blackboard :=
  (blackboard_get blackboard (target_ self) Detection.default).

(** C6: with no detections the gate fails and writes direction -1,
    whatever the confidence threshold is. *)
Theorem tick_no_detections (target entity : string) (tau : double)
    (blackboard : gmap string Detection.t) :
  get_by_features (blackboard_get blackboard target Detection.default) tau = [] ->
  tick (mkIsInFront target tau entity) blackboard
  = (FAILURE, mkEffects [("direction", (-1)%Z)] []).
Proof.
  intros Hempty. unfold perception.tick. cbn [target_ confidence_].
  now rewrite Hempty.
Qed.

(** C5: with a head detection of bearing [b] degrees, the gate fails with
    direction +1 when |b| > 5 and b > 0, fails with direction -1 when
    |b| > 5 and b < 0, and passes with direction 0 when |b| <= 5. *)
Theorem tick_bearing_cases (self : IsInFront)
    (blackboard : gmap string Detection.t) (d : Detection.t)
    (ds : list Detection.t) :
  get_by_features (template self blackboard) (confidence_ self) = d :: ds ->
  let b := yaw_of d in
  let r := tick self blackboard in
  (Double.gt (Double.abs b) Double.five = true ->
   Double.gt b Double.zero = true ->
   fst r = FAILURE /\ outputs (snd r) = [("direction", 1%Z)])
  /\ (Double.gt (Double.abs b) Double.five = true ->
      Double.lt b Double.zero = true ->
      fst r = FAILURE /\ outputs (snd r) = [("direction", (-1)%Z)])
  /\ (Double.le (Double.abs b) Double.five = true ->
      fst r = SUCCESS /\ outputs (snd r) = [("direction", 0%Z)]).
Proof.
  intros Hhead b r. subst r. unfold perception.tick. rewrite Hhead.
  fold b. change (Double.of_Z 0) with Double.zero.
  split; [|split].
  - intros Hfar Hleft. rewrite Hfar, Hleft. split; reflexivity.
  - intros Hfar Hright. apply Double_lt_not_gt in Hright.
    rewrite Hfar, Hright. split; reflexivity.
  - intros Hnear. apply Double_le_not_gt in Hnear.
    rewrite Hnear. split; reflexivity.
Qed.

(** C10: every tick writes the output "direction" exactly once, the value
    written is -1, 0 or +1, and the tick returns SUCCESS exactly when that
    value is 0 and FAILURE otherwise. *)
Theorem tick_direction_written_once (self : IsInFront)
    (blackboard : gmap string Detection.t) :
  exists v : Z,
    outputs (snd (tick self blackboard)) = [("direction", v)]
    /\ (v = (-1)%Z \/ v = 0%Z \/ v = 1%Z)
    /\ (fst (tick self blackboard) = SUCCESS <-> v = 0%Z)
    /\ (fst (tick self blackboard) = FAILURE <-> v <> 0%Z).
Proof.
  unfold perception.tick.
  destruct (get_by_features _ _) as [|d ds].
  - exists (-1)%Z. cbn. intuition (try discriminate; try lia).
  - destruct (Double.gt (Double.abs (yaw_of d)) Double.five).
    + destruct (Double.gt (yaw_of d) (Double.of_Z 0)).
      * exists 1%Z. cbn. intuition (try discriminate; try lia).
      * exists (-1)%Z. cbn. intuition (try discriminate; try lia).
    + exists 0%Z. cbn. intuition (try discriminate; try lia).
Qed.

(** C4: the constructor fills [confidence_] from the port keyed
    "conficende".  Two port maps that agree everywhere except under the key
    "confidence" build the same node, and its tick returns the same verdict
    and writes the same direction. *)
Theorem tick_ignores_confidence_port (confidence0 : double)
    (p1 p2 : gmap string port_value) (blackboard : gmap string Detection.t) :
  (forall k : string, k <> "confidence" -> p1 !! k = p2 !! k) ->
  confidence_ (fst (IsInFront_new confidence0 p1))
  = getInput p1 "conficende" confidence0
  /\ IsInFront_new confidence0 p1 = IsInFront_new confidence0 p2
  /\ tick (fst (IsInFront_new confidence0 p1)) blackboard
     = tick (fst (IsInFront_new confidence0 p2)) blackboard.
Proof.
  intros Hagree.
  assert (Hnew : IsInFront_new confidence0 p1 = IsInFront_new confidence0 p2).
  { unfold IsInFront_new, getInput.
    rewrite !(Hagree "target"), !(Hagree "conficende"), !(Hagree "what"),
      !(Hagree "entity_to_identify") by discriminate.
    reflexivity. }
  split; [|split].
  - unfold IsInFront_new. cbv zeta.
    repeat match goal with
           | |- context [if ?c then _ else _] => destruct c
           end; reflexivity.
  - exact Hnew.
  - now rewrite Hnew.
Qed.

End BearingGate.

(** The gate on concrete detections: straight ahead, exactly 5 degrees,
    the next double above 5 degrees, and 10 degrees to either side. *)
Example tick_at_boundary :
  perception.tick (Samples.atan2_const Samples.rad_5deg)
    (Samples.listener [Samples.detection_at Double.one Double.zero])
    Samples.gate ∅
  = (SUCCESS,
     perception.mkEffects [("direction", 0%Z)]
       [(Samples.detection_at Double.one Double.zero, "person")]).
Proof. vm_compute. reflexivity. Qed.

Example yaw_at_boundary :
  perception.yaw_of (Samples.atan2_const Samples.rad_5deg)
    (Samples.detection_at Double.one Double.zero) = Double.five.
Proof. vm_compute. reflexivity. Qed.

Example tick_just_above_boundary :
  perception.tick (Samples.atan2_const Samples.rad_above_5deg)
    (Samples.listener [Samples.detection_at Double.one Double.zero])
    Samples.gate ∅
  = (FAILURE, perception.mkEffects [("direction", 1%Z)] []).
Proof. vm_compute. reflexivity. Qed.

Example tick_straight_ahead :
  perception.tick (Samples.atan2_const Double.zero)
    (Samples.listener [Samples.detection_at Double.one Double.zero])
    Samples.gate ∅
  = (SUCCESS,
     perception.mkEffects [("direction", 0%Z)]
       [(Samples.detection_at Double.one Double.zero, "person")]).
Proof. vm_compute. reflexivity. Qed.

(** No detections, threshold 0.5. *)
Lemma tick_no_detections_witness :
  perception.tick (Samples.atan2_const Samples.half) (Samples.listener [])
    (perception.mkIsInFront "person_0" Samples.half "person") ∅
  = (FAILURE, perception.mkEffects [("direction", (-1)%Z)] []).
Proof.
  apply (tick_no_detections (Samples.atan2_const Samples.half)
           (Samples.listener [])).
  reflexivity.
Defined.

(** Bearings of +10, -10 and exactly 5 degrees. *)
Lemma tick_bearing_cases_witness :
  let d := Samples.detection_at Double.one Double.zero in
  let run r := perception.tick (Samples.atan2_const r) (Samples.listener [d])
                 Samples.gate ∅ in
  (fst (run Samples.rad_10deg) = FAILURE
   /\ perception.outputs (snd (run Samples.rad_10deg)) = [("direction", 1%Z)])
  /\ (fst (run Samples.rad_minus_10deg) = FAILURE
      /\ perception.outputs (snd (run Samples.rad_minus_10deg))
         = [("direction", (-1)%Z)])
  /\ (fst (run Samples.rad_5deg) = SUCCESS
      /\ perception.outputs (snd (run Samples.rad_5deg))
         = [("direction", 0%Z)]).
Proof.
  intros d run. split; [|split].
  - apply (proj1 (tick_bearing_cases (Samples.atan2_const Samples.rad_10deg)
                    (Samples.listener [d]) Samples.gate ∅ d [] eq_refl));
      vm_compute; reflexivity.
  - apply (proj1 (proj2
             (tick_bearing_cases (Samples.atan2_const Samples.rad_minus_10deg)
                (Samples.listener [d]) Samples.gate ∅ d [] eq_refl)));
      vm_compute; reflexivity.
  - apply (proj2 (proj2
             (tick_bearing_cases (Samples.atan2_const Samples.rad_5deg)
                (Samples.listener [d]) Samples.gate ∅ d [] eq_refl)));
      vm_compute; reflexivity.
Defined.

(** Two port maps that differ under "confidence" only. *)
Lemma tick_ignores_confidence_port_witness :
  let p1 := <["confidence" := PDouble Double.zero]> Samples.gate_ports in
  let p2 := <["confidence" := PDouble Double.one]> Samples.gate_ports in
  let d := Samples.detection_at Double.one Double.zero in
  perception.tick (Samples.atan2_const Samples.rad_10deg) (Samples.listener [d])
    (fst (perception.IsInFront_new Double.zero p1)) ∅
  = perception.tick (Samples.atan2_const Samples.rad_10deg)
      (Samples.listener [d])
      (fst (perception.IsInFront_new Double.zero p2)) ∅.
Proof.
  intros p1 p2 d.
  apply (tick_ignores_confidence_port (Samples.atan2_const Samples.rad_10deg)
           (Samples.listener [d]) Double.zero p1 p2 ∅).
  intros k Hk. unfold p1, p2.
  now rewrite !lookup_insert_ne by congruence.
Defined.

(** ** Reading ports *)

Lemma getInput_present {T} `{BT.FromPort T} (ports : gmap string port_value)
    (key : string) (v : port_value) (t d : T) :
  ports !! key = Some v -> BT.from_port v = Some t -> getInput ports key d = t.
Proof. intros Hk Hv. unfold getInput. now rewrite Hk, Hv. Qed.

Lemma getInput_bool (ports : gmap string port_value) (key : string)
    (b d : bool) :
  ports !! key = Some (PBool b) -> getInput ports key d = b.
Proof. intros Hk. now apply (getInput_present ports key (PBool b)). Qed.

Lemma getInput_double (ports : gmap string port_value) (key : string)
    (x d : double) :
  ports !! key = Some (PDouble x) -> getInput ports key d = x.
Proof. intros Hk. now apply (getInput_present ports key (PDouble x)). Qed.

(** ** Goal resolution: what one run of [on_tick] does *)

Section GoalResolver.

Import navigation.

Variable lookupTransform : string -> string -> option TransformStamped.t.
Variable generate_xml_file : string -> double -> string.
Variable nav_to_pose_truncated_xml : string.

Local Abbreviation on_tick :=
  (navigation.on_tick lookupTransform generate_xml_file
     nav_to_pose_truncated_xml).

Lemma on_tick_will_finish ports ready u self :
  will_finish_ (on_tick ports ready u self)
  = getInput ports "will_finish" (will_finish_ self).
Proof. on_tick_cases; reflexivity. Qed.

Lemma on_tick_goal_updated ports ready u self :
  goal_updated_ (on_tick ports ready u self) = goal_updated_ self.
Proof. on_tick_cases; reflexivity. Qed.

(** The goal [on_tick] stores does not depend on the flags of the node. *)
Lemma on_tick_goal_flag_independent ports ready u self b :
  goal_ (on_tick ports ready u (set_goal_updated b self))
  = goal_ (on_tick ports ready u self).
Proof. on_tick_cases; reflexivity. Qed.

(** The readiness check is made on every run, truncated goal or not. *)
Lemma on_tick_always_waits ports ready u self :
  In WaitForService (calls (on_tick ports ready u self)).
Proof.
  on_tick_cases; rewrite ?in_app_iff; cbn; tauto.
Qed.

(** When the service is not ready the status is set to RUNNING. *)
Lemma on_tick_service_down_running ports u self :
  status_ (on_tick ports false u self) = RUNNING.
Proof. on_tick_cases; reflexivity. Qed.

(** The stored pose is overwritten on every run, whatever the service
    and the frame lookup answered: it never depends on the pose stored
    before. *)
Lemma on_tick_pose_fresh ports ready u self g :
  pose (goal_ (on_tick ports ready u (set_goal g self)))
  = pose (goal_ (on_tick ports ready u self)).
Proof. on_tick_cases; reflexivity. Qed.

(** A failed frame lookup sets the status to RUNNING and stores the
    default-constructed transform as the goal pose. *)
Lemma on_tick_lookup_failure ports ready u self :
  (0 < String.length (getInput ports "tf_frame" ""))%nat ->
  lookupTransform "map" (getInput ports "tf_frame" "") = None ->
  status_ (on_tick ports ready u self) = RUNNING
  /\ pose (goal_ (on_tick ports ready u self))
     = PoseStamped.mk "map" Pose.default.
Proof.
  intros Hlen Hfail. apply Nat.ltb_lt in Hlen.
  unfold navigation.on_tick; cbv zeta. rewrite Hlen, Hfail.
  destruct ready, (getInput ports "is_truncated" (is_truncated0 u));
    cbn; split; reflexivity.
Qed.

(** X17: a frame lookup that answers: x, y and the rotation of the
    transform are copied into the goal; z keeps its default. *)
Lemma on_tick_lookup_success ports ready u self (t : TransformStamped.t) :
  (0 < String.length (getInput ports "tf_frame" ""))%nat ->
  lookupTransform "map" (getInput ports "tf_frame" "") = Some t ->
  let tr := Transform.translation (TransformStamped.transform t) in
  pose (goal_ (on_tick ports ready u self))
  = PoseStamped.mk "map"
      (Pose.mk (Point.mk (Point.x tr) (Point.y tr) Double.zero)
               (Transform.rotation (TransformStamped.transform t))).
Proof.
  intros Hlen Hok tr. apply Nat.ltb_lt in Hlen.
  unfold navigation.on_tick; cbv zeta. rewrite Hlen, Hok.
  destruct ready, (getInput ports "is_truncated" (is_truncated0 u));
    cbn; destruct (Transform.rotation _); reflexivity.
Qed.

(** Marking the goal as updated commutes with a run of [on_tick]. *)
Lemma on_tick_set_goal_updated ports ready u self b :
  on_tick ports ready u (set_goal_updated b self)
  = set_goal_updated b (on_tick ports ready u self).
Proof. on_tick_cases; reflexivity. Qed.

(** The pose [on_tick] stores is a function of the ports and of the
    frame lookup alone. *)
Lemma on_tick_pose_determined ports ready ready' u u' self self' :
  pose (goal_ (on_tick ports ready u self))
  = pose (goal_ (on_tick ports ready' u' self')).
Proof. on_tick_cases; reflexivity. Qed.

(** The behaviour tree [on_tick] stores, when the port "is_truncated" is
    there: the generated file for a truncated goal, the stored one
    otherwise. *)
Lemma on_tick_behavior_tree ports ready u self (b : bool) :
  ports !! "is_truncated" = Some (PBool b) ->
  behavior_tree (goal_ (on_tick ports ready u self))
  = if b then generate_xml_file nav_to_pose_truncated_xml
                (getInput ports "distance_tolerance" (distance_tolerance0 u))
    else behavior_tree (goal_ self).
Proof.
  intros Hb. unfold navigation.on_tick; cbv zeta.
  rewrite (getInput_bool _ _ b _ Hb).
  destruct b; on_tick_cases; reflexivity.
Qed.

Lemma Goal_eq (g g' : Goal) :
  pose g = pose g' -> behavior_tree g = behavior_tree g' -> g = g'.
Proof. destruct g, g'; cbn; congruence. Qed.

(** The coordinate path as it holds on every node: with an empty
    "tf_frame" the stored goal has position (x, y) from the ports, the
    identity orientation and frame "map", and the status is touched by the
    readiness check only.  When "is_truncated" is false the run generates
    nothing and makes no frame lookup, and it does not write the behaviour
    tree of the stored goal at all. *)
Theorem on_tick_coordinates ports ready u self (x y : double) :
  getInput ports "tf_frame" "" = "" ->
  ports !! "x" = Some (PDouble x) ->
  ports !! "y" = Some (PDouble y) ->
  let self' := on_tick ports ready u self in
  Pose.position (PoseStamped.pose (pose (goal_ self')))
  = Point.mk x y Double.zero
  /\ Pose.orientation (PoseStamped.pose (pose (goal_ self')))
     = Quaternion.mk Double.zero Double.zero Double.zero Double.one
  /\ PoseStamped.frame_id (pose (goal_ self')) = "map"
  /\ status_ self' = (if ready then status_ self else RUNNING)
  /\ (ports !! "is_truncated" = Some (PBool false) ->
      behavior_tree (goal_ self') = behavior_tree (goal_ self)
      /\ calls self' = (calls self ++ [WaitForService])%list).
Proof.
  intros Hframe Hx Hy self'. subst self'.
  unfold navigation.on_tick; cbv zeta.
  rewrite Hframe, (getInput_double _ _ x _ Hx), (getInput_double _ _ y _ Hy).
  cbn [String.length Nat.ltb Nat.leb].
  destruct (getInput ports "is_truncated" (is_truncated0 u)) eqn:Htr;
    destruct ready; cbn;
    (split; [reflexivity|]); (split; [reflexivity|]);
    (split; [reflexivity|]); (split; [reflexivity|]);
    intros Hport; rewrite (getInput_bool _ _ false _ Hport) in Htr;
    try discriminate Htr; split; reflexivity.
Qed.

(** An immediate second run.  When the ports supply "is_truncated" (and
    "distance_tolerance" for a truncated goal), resolving twice in a row
    with the same ports and the same answers stores the same goal, whatever
    the uninitialised locals held in either run; and the behaviour tree of
    a truncated goal is the generated file for its tolerance. *)
Theorem on_tick_idempotent ports ready u1 u2 self (b : bool) :
  ports !! "is_truncated" = Some (PBool b) ->
  (b = true -> exists t, ports !! "distance_tolerance" = Some (PDouble t)) ->
  goal_ (on_tick ports ready u2 (on_tick ports ready u1 self))
  = goal_ (on_tick ports ready u1 self)
  /\ (forall t, b = true ->
        ports !! "distance_tolerance" = Some (PDouble t) ->
        behavior_tree (goal_ (on_tick ports ready u1 self))
        = generate_xml_file nav_to_pose_truncated_xml t).
Proof.
  intros Hb Htol. split.
  - apply Goal_eq; [apply on_tick_pose_determined|].
    rewrite !(on_tick_behavior_tree _ _ _ _ b Hb).
    destruct b; [|reflexivity].
    destruct (Htol eq_refl) as [t Ht].
    now rewrite !(getInput_double _ _ t _ Ht).
  - intros t -> Ht.
    rewrite (on_tick_behavior_tree _ _ _ _ true Hb).
    now rewrite (getInput_double _ _ t _ Ht).
Qed.

End GoalResolver.

(** ** The finish-or-continue decision after a terminal outcome *)

Section GoalLifecycle.

Import navigation.

Variable lookupTransform : string -> string -> option TransformStamped.t.
Variable generate_xml_file : string -> double -> string.
Variable nav_to_pose_truncated_xml : string.

Local Abbreviation on_tick :=
  (navigation.on_tick lookupTransform generate_xml_file
     nav_to_pose_truncated_xml).
Local Abbreviation on_success :=
  (navigation.on_success lookupTransform generate_xml_file
     nav_to_pose_truncated_xml).
Local Abbreviation on_aborted :=
  (navigation.on_aborted lookupTransform generate_xml_file
     nav_to_pose_truncated_xml).
Local Abbreviation on_cancelled :=
  (navigation.on_cancelled lookupTransform generate_xml_file
     nav_to_pose_truncated_xml).
Local Abbreviation on_outcome :=
  (navigation.on_outcome lookupTransform generate_xml_file
     nav_to_pose_truncated_xml).

(** Aborted and Cancelled are handled by the same steps. *)
Lemma on_aborted_on_cancelled_continue ports ready u self :
  will_finish_ self = false ->
  on_aborted ports ready u self = on_cancelled ports ready u self.
Proof.
  intros Hf. unfold navigation.on_aborted, navigation.on_cancelled.
  now rewrite Hf.
Qed.

(** Only the handler of Succeeded raises [goal_updated_]; the other two
    leave the flag as they found it. *)
Lemma goal_updated_after_outcome ports ready u self (o : Outcome) :
  will_finish_ self = false ->
  goal_updated_ (snd (on_outcome o ports ready u self))
  = match o with
    | Succeeded => true
    | Aborted | Cancelled => goal_updated_ self
    end.
Proof.
  intros Hf.
  destruct o; cbn [navigation.on_outcome];
    unfold navigation.on_success, navigation.on_aborted,
      navigation.on_cancelled; rewrite Hf; cbn [snd];
    unfold on_new_goal_received, call; cbn [goal_updated_];
    now rewrite on_tick_goal_updated.
Qed.

(** [on_success] follows the continuation rule of the design. *)
Lemma on_success_continuation ports ready u self :
  will_finish_ self = false ->
  on_success ports ready u self
  = spec_continuation_rule lookupTransform generate_xml_file
      nav_to_pose_truncated_xml ports ready u self.
Proof.
  intros Hf. unfold navigation.on_success, spec_continuation_rule.
  rewrite Hf. cbv zeta. now rewrite on_tick_set_goal_updated.
Qed.

(** [on_aborted] and [on_cancelled] follow it only on a node whose
    [goal_updated_] is raised already. *)
Lemma on_aborted_continuation ports ready u self :
  will_finish_ self = false ->
  (on_aborted ports ready u self
   = spec_continuation_rule lookupTransform generate_xml_file
       nav_to_pose_truncated_xml ports ready u self
   <-> goal_updated_ self = true).
Proof.
  intros Hf. split.
  - intros Heq.
    pose proof (goal_updated_after_outcome ports ready u self Aborted Hf)
      as Hab.
    pose proof (goal_updated_after_outcome ports ready u self Succeeded Hf)
      as Hsu.
    cbn [navigation.on_outcome] in Hab, Hsu.
    rewrite Heq, <- on_success_continuation, Hsu in Hab by exact Hf.
    now symmetry.
  - intros Hup. unfold navigation.on_aborted, spec_continuation_rule.
    rewrite Hf. cbv zeta. rewrite <- on_tick_set_goal_updated.
    replace (set_goal_updated true self) with self; [reflexivity|].
    destruct self; cbn in *; now subst.
Qed.

(** Whether or not the service is ready, the handlers of a continuing
    node hand the newly resolved goal to the action client. *)
Lemma on_outcome_dispatches ports ready u self (o : Outcome) :
  will_finish_ self = false ->
  In (NewGoalReceived (goal_ (on_tick ports ready u self)))
     (calls (snd (on_outcome o ports ready u self))).
Proof.
  intros Hf.
  destruct o; cbn [navigation.on_outcome];
    unfold navigation.on_success, navigation.on_aborted,
      navigation.on_cancelled; rewrite Hf; cbn [snd];
    unfold on_new_goal_received, call; cbn [calls goal_];
    rewrite ?on_tick_goal_flag_independent;
    apply in_or_app; right; left; reflexivity.
Qed.

(** C2: with the finish flag set the verdicts are Succeeded -> SUCCESS,
    Aborted -> FAILURE, Cancelled -> SUCCESS and the node is left as it
    was; with the flag clear every outcome returns RUNNING, stores the goal
    [on_tick] resolves and hands that goal to the action client last. *)
Theorem on_outcome_verdict ports ready u self :
  (will_finish_ self = true ->
   on_success ports ready u self = (SUCCESS, self)
   /\ on_aborted ports ready u self = (FAILURE, self)
   /\ on_cancelled ports ready u self = (SUCCESS, self))
  /\ (will_finish_ self = false ->
      forall o : Outcome,
        let r := on_outcome o ports ready u self in
        fst r = RUNNING
        /\ goal_ (snd r) = goal_ (on_tick ports ready u self)
        /\ exists before,
             calls (snd r)
             = (before ++ [NewGoalReceived
                             (goal_ (on_tick ports ready u self))])%list).
Proof.
  split; intros Hf.
  - unfold navigation.on_success, navigation.on_aborted,
      navigation.on_cancelled.
    rewrite Hf. repeat split.
  - intros o r. subst r.
    destruct o; cbn [navigation.on_outcome];
      unfold navigation.on_success, navigation.on_aborted,
        navigation.on_cancelled; rewrite Hf; cbn [fst snd];
      unfold on_new_goal_received, call; cbn [goal_ calls];
      rewrite ?on_tick_goal_flag_independent;
      (split; [reflexivity|split; [reflexivity|]]);
      eexists; reflexivity.
Qed.

End GoalLifecycle.

(** ** The methods on concrete nodes *)

(** C1: a run whose frame lookup throws.  The node held the goal (2, 3);
    after the run the status is RUNNING, but the stored pose has been
    replaced by the default-constructed transform (the origin of "map"
    with the identity rotation). *)
Theorem on_tick_failed_lookup_overwrites_goal :
  let self' :=
    navigation.on_tick Samples.lookup_fails Samples.xml_named_after_template
      Samples.template_xml Samples.ports_frame true Samples.locals
      Samples.node_at_2_3 in
  getInput Samples.ports_frame "tf_frame" "" = "kitchen"
  /\ Samples.lookup_fails "map" "kitchen" = None
  /\ navigation.status_ self' = RUNNING
  /\ navigation.pose (navigation.goal_ self')
     = PoseStamped.mk "map" Pose.default
  /\ navigation.pose (navigation.goal_ self')
     <> navigation.pose (navigation.goal_ Samples.node_at_2_3).
Proof.
  vm_compute. repeat (split; [reflexivity|]). discriminate.
Qed.

(** C7: a run during which the service is not ready.  The readiness check
    is made and the status is RUNNING, but the goal resolved in this run,
    (2, 3), is stored over the previous one all the same; and when the run
    is the one [on_aborted] makes, that goal is handed to the action client
    in the same call. *)
Theorem on_tick_service_down_still_stores_goal :
  let self' :=
    navigation.on_tick Samples.lookup_fails Samples.xml_named_after_template
      Samples.template_xml Samples.ports_xy false Samples.locals
      Samples.node_continuing in
  let r :=
    navigation.on_aborted Samples.lookup_fails
      Samples.xml_named_after_template Samples.template_xml Samples.ports_xy
      false Samples.locals Samples.node_continuing in
  navigation.calls self' = [navigation.WaitForService]
  /\ navigation.status_ self' = RUNNING
  /\ navigation.pose (navigation.goal_ self')
     = Samples.pose_at Samples.two Samples.three
  /\ navigation.pose (navigation.goal_ self')
     <> navigation.pose (navigation.goal_ Samples.node_continuing)
  /\ navigation.calls (snd r)
     = [navigation.WaitForService;
        navigation.NewGoalReceived
          (navigation.mkGoal (Samples.pose_at Samples.two Samples.three) "")].
Proof.
  vm_compute. repeat (split; [reflexivity|]). split; [discriminate|reflexivity].
Qed.

(** C3: the three handlers on a node that keeps navigating and whose
    [goal_updated_] is clear.  [on_success] does what the continuation rule
    says and leaves the flag raised; [on_aborted] and [on_cancelled] leave
    it clear, so the node they leave is neither the one the rule gives nor
    the one [on_success] leaves. *)
Theorem continuation_differs_in_goal_updated :
  let run handler :=
    handler Samples.lookup_answers Samples.xml_named_after_template
      Samples.template_xml Samples.ports_xy true Samples.locals
      Samples.node_continuing in
  navigation.will_finish_ Samples.node_continuing = false
  /\ run navigation.on_success = run navigation.spec_continuation_rule
  /\ navigation.goal_updated_ (snd (run navigation.on_success)) = true
  /\ navigation.goal_updated_ (snd (run navigation.on_aborted)) = false
  /\ navigation.goal_updated_ (snd (run navigation.on_cancelled)) = false
  /\ run navigation.on_aborted <> run navigation.spec_continuation_rule
  /\ run navigation.on_cancelled <> run navigation.spec_continuation_rule
  /\ run navigation.on_aborted <> run navigation.on_success
  /\ run navigation.on_cancelled <> run navigation.on_success.
Proof.
  vm_compute. repeat (split; [reflexivity|]). repeat split; discriminate.
Qed.

(** C8: a run with an empty "tf_frame" and "is_truncated" false, on a node
    whose [goal_] was last written by a truncated run.  The position is
    (2, 3) and the orientation the identity, as the ports say, but the goal
    the run stores still names the behaviour tree of the earlier truncated
    goal: [on_tick] replaces [goal_.pose] on every run and never resets
    [goal_.behavior_tree]. *)
Lemma on_tick_coordinates_stale_behavior_tree :
  let self' :=
    navigation.on_tick Samples.lookup_fails Samples.xml_named_after_template
      Samples.template_xml Samples.ports_xy true Samples.locals
      Samples.node_after_truncated in
  getInput Samples.ports_xy "tf_frame" "" = ""
  /\ Samples.ports_xy !! "is_truncated" = Some (PBool false)
  /\ navigation.pose (navigation.goal_ self')
     = Samples.pose_at Samples.two Samples.three
  /\ navigation.behavior_tree (navigation.goal_ self')
     = "nav_to_pose_truncated.xml"
  /\ navigation.behavior_tree (navigation.goal_ self') <> "".
Proof.
  vm_compute. repeat (split; [reflexivity|]). discriminate.
Qed.

(** C9: the goal a run stores is not a function of the ports and the
    collaborators' answers alone.  The same ports (coordinates (2, 3), not
    truncated) with the same answers give one goal on a fresh node and
    another on a node whose [goal_] was last written by a truncated run;
    and resolving those ports, then a truncated goal, then those ports
    again gives a third goal that differs from the first.  The poses agree
    each time; the behaviour tree is what differs. *)
Theorem on_tick_goal_depends_on_stored_goal :
  let resolve ports self :=
    navigation.on_tick Samples.lookup_fails Samples.xml_named_after_template
      Samples.template_xml ports true Samples.locals self in
  let fresh := resolve Samples.ports_xy Samples.node_continuing in
  let stale := resolve Samples.ports_xy Samples.node_after_truncated in
  let first := resolve Samples.ports_xy Samples.node_continuing in
  let second := resolve Samples.ports_truncated first in
  let third := resolve Samples.ports_xy second in
  navigation.pose (navigation.goal_ stale)
  = navigation.pose (navigation.goal_ fresh)
  /\ navigation.behavior_tree (navigation.goal_ fresh) = ""
  /\ navigation.behavior_tree (navigation.goal_ stale)
     = "nav_to_pose_truncated.xml"
  /\ navigation.goal_ stale <> navigation.goal_ fresh
  /\ navigation.pose (navigation.goal_ third)
     = navigation.pose (navigation.goal_ first)
  /\ navigation.behavior_tree (navigation.goal_ first) = ""
  /\ navigation.behavior_tree (navigation.goal_ third)
     = "nav_to_pose_truncated.xml"
  /\ navigation.goal_ third <> navigation.goal_ first.
Proof.
  vm_compute. repeat (split; [reflexivity|]).
  split; [discriminate|]. repeat (split; [reflexivity|]). discriminate.
Qed.

(** The scenario tf_frame = "", x = 2, y = 3, not truncated, on a fresh
    node. *)
Lemma on_tick_coordinates_witness :
  let self' :=
    navigation.on_tick Samples.lookup_fails Samples.xml_named_after_template
      Samples.template_xml Samples.ports_xy true Samples.locals
      Samples.node_continuing in
  Pose.position (PoseStamped.pose (navigation.pose (navigation.goal_ self')))
  = Point.mk Samples.two Samples.three Double.zero
  /\ Pose.orientation
       (PoseStamped.pose (navigation.pose (navigation.goal_ self')))
     = Quaternion.mk Double.zero Double.zero Double.zero Double.one
  /\ PoseStamped.frame_id (navigation.pose (navigation.goal_ self')) = "map"
  /\ navigation.status_ self' = IDLE
  /\ (Samples.ports_xy !! "is_truncated" = Some (PBool false) ->
      navigation.behavior_tree (navigation.goal_ self') = ""
      /\ navigation.calls self' = [navigation.WaitForService]).
Proof.
  apply (on_tick_coordinates Samples.lookup_fails
           Samples.xml_named_after_template Samples.template_xml
           Samples.ports_xy true Samples.locals Samples.node_continuing
           Samples.two Samples.three); reflexivity.
Defined.

(** A truncated goal with tolerance 0.5, resolved twice. *)
Lemma on_tick_idempotent_witness :
  let once :=
    navigation.on_tick Samples.lookup_answers Samples.xml_named_after_template
      Samples.template_xml Samples.ports_truncated true Samples.locals
      Samples.node_continuing in
  let twice :=
    navigation.on_tick Samples.lookup_answers Samples.xml_named_after_template
      Samples.template_xml Samples.ports_truncated true Samples.other_locals
      once in
  navigation.goal_ twice = navigation.goal_ once
  /\ navigation.behavior_tree (navigation.goal_ once)
     = Samples.xml_named_after_template Samples.template_xml Samples.half.
Proof.
  intros once twice.
  destruct (on_tick_idempotent Samples.lookup_answers
              Samples.xml_named_after_template Samples.template_xml
              Samples.ports_truncated true Samples.locals Samples.other_locals
              Samples.node_continuing true eq_refl
              (fun _ => ex_intro _ Samples.half eq_refl)) as [Hsame Href].
  split; [exact Hsame|].
  apply (Href Samples.half); reflexivity.
Defined.

(** The three handlers on a finishing node, and [on_aborted] on a
    continuing one. *)
Lemma on_outcome_verdict_witness :
  (navigation.on_success Samples.lookup_answers
     Samples.xml_named_after_template Samples.template_xml Samples.ports_xy
     true Samples.locals Samples.node_finishing
   = (SUCCESS, Samples.node_finishing)
   /\ navigation.on_aborted Samples.lookup_answers
        Samples.xml_named_after_template Samples.template_xml Samples.ports_xy
        true Samples.locals Samples.node_finishing
      = (FAILURE, Samples.node_finishing)
   /\ navigation.on_cancelled Samples.lookup_answers
        Samples.xml_named_after_template Samples.template_xml Samples.ports_xy
        true Samples.locals Samples.node_finishing
      = (SUCCESS, Samples.node_finishing))
  /\ fst (navigation.on_aborted Samples.lookup_answers
            Samples.xml_named_after_template Samples.template_xml
            Samples.ports_xy true Samples.locals Samples.node_continuing)
     = RUNNING.
Proof.
  split.
  - apply (proj1 (on_outcome_verdict Samples.lookup_answers
                    Samples.xml_named_after_template Samples.template_xml
                    Samples.ports_xy true Samples.locals
                    Samples.node_finishing)).
    reflexivity.
  - apply (proj2 (on_outcome_verdict Samples.lookup_answers
                    Samples.xml_named_after_template Samples.template_xml
                    Samples.ports_xy true Samples.locals
                    Samples.node_continuing) eq_refl navigation.Aborted).
Defined.

(** * Further properties of the two nodes *)

(** ** [on_tick]: what it stores, reads and calls *)

Section GoalResolverMore.

Import navigation.

Variable lookupTransform : string -> string -> option TransformStamped.t.
Variable generate_xml_file : string -> double -> string.
Variable nav_to_pose_truncated_xml : string.

Local Abbreviation on_tick :=
  (navigation.on_tick lookupTransform generate_xml_file
     nav_to_pose_truncated_xml).

(** X1: whatever the ports, the lookup and the service say, the goal
    [on_tick] stores is in frame "map" and has height zero: the z of a
    looked-up transform is never copied. *)
Theorem on_tick_goal_planar_in_map ports ready u self :
  PoseStamped.frame_id (pose (goal_ (on_tick ports ready u self))) = "map"
  /\ Point.z (Pose.position
                (PoseStamped.pose (pose (goal_ (on_tick ports ready u self)))))
     = Double.zero.
Proof. on_tick_cases; split; reflexivity. Qed.

(** X2: with a frame named, the coordinates are ignored: port maps that
    differ under "x" and "y" only leave the same node behind. *)
Theorem on_tick_frame_ignores_coordinates
    (p1 p2 : gmap string port_value) ready u self :
  (0 < String.length (getInput p1 "tf_frame" ""))%nat ->
  (forall k : string, k <> "x" -> k <> "y" -> p1 !! k = p2 !! k) ->
  on_tick p1 ready u self = on_tick p2 ready u self.
Proof.
  intros Hlen Hagree.
  assert (Hin : forall T `{BT.FromPort T} (k : string) (d : T),
             k <> "x" -> k <> "y" -> getInput p1 k d = getInput p2 k d).
  { intros T HT k d Hx Hy. unfold getInput. now rewrite (Hagree k Hx Hy). }
  apply Nat.ltb_lt in Hlen.
  unfold navigation.on_tick; cbv zeta.
  rewrite <- !(Hin string _ "tf_frame"), <- !(Hin bool _ "will_finish"),
    <- !(Hin bool _ "is_truncated"), <- !(Hin double _ "distance_tolerance")
    by discriminate.
  rewrite Hlen. reflexivity.
Qed.

(** X3: the only status [on_tick] ever sets is RUNNING, and it sets it
    exactly when the frame lookup it made threw or the service was not
    ready; otherwise the status is left alone. *)
Theorem on_tick_status ports ready u self :
  let tf_frame := getInput ports "tf_frame" "" in
  status_ (on_tick ports ready u self)
  = if ((0 <? String.length tf_frame)%nat
        && negb (bool_decide (is_Some (lookupTransform "map" tf_frame))))
       || negb ready
    then RUNNING else status_ self.
Proof.
  intros tf_frame. subst tf_frame. unfold navigation.on_tick; cbv zeta.
  destruct (0 <? String.length (getInput ports "tf_frame" ""))%nat;
    [destruct (lookupTransform "map" (getInput ports "tf_frame" ""))|];
    destruct ready, (getInput ports "is_truncated" (is_truncated0 u));
    reflexivity.
Qed.

(** X4: the calls of one run, in order: the frame lookup (target "map")
    when a frame is named, then the readiness check, always and once, then
    the generation of the truncation file when the goal is truncated. *)
Theorem on_tick_calls ports ready u self :
  let tf_frame := getInput ports "tf_frame" "" in
  let is_truncated := getInput ports "is_truncated" (is_truncated0 u) in
  let tolerance :=
    getInput ports "distance_tolerance" (distance_tolerance0 u) in
  calls (on_tick ports ready u self)
  = (calls self
     ++ (if (0 <? String.length tf_frame)%nat
         then [LookupTransform "map" tf_frame] else [])
     ++ [WaitForService]
     ++ (if is_truncated
         then [GenerateXmlFile nav_to_pose_truncated_xml tolerance]
         else []))%list.
Proof.
  intros tf_frame is_truncated tolerance.
  subst tf_frame is_truncated tolerance.
  unfold navigation.on_tick; cbv zeta.
  destruct (0 <? String.length (getInput ports "tf_frame" ""))%nat;
    [destruct (lookupTransform "map" (getInput ports "tf_frame" ""))|];
    destruct ready, (getInput ports "is_truncated" (is_truncated0 u));
    cbn; rewrite <- ?app_assoc; reflexivity.
Qed.

(** X5: with no frame named, a coordinate port that is missing leaves the
    coordinate at zero, so a node with neither "x" nor "y" is sent to the
    origin of "map". *)
Theorem on_tick_missing_coordinates ports ready u self :
  getInput ports "tf_frame" "" = "" ->
  let p := Pose.position
             (PoseStamped.pose (pose (goal_ (on_tick ports ready u self)))) in
  (ports !! "x" = None -> Point.x p = Double.zero)
  /\ (ports !! "y" = None -> Point.y p = Double.zero).
Proof.
  intros Hframe p. subst p.
  unfold navigation.on_tick; cbv zeta. rewrite Hframe.
  cbn [String.length Nat.ltb Nat.leb].
  split; intros Hnone.
  - assert (Hx : forall d : double, getInput ports "x" d = d)
      by (intros d; unfold getInput; now rewrite Hnone).
    rewrite Hx.
    destruct ready, (getInput ports "is_truncated" (is_truncated0 u));
      reflexivity.
  - assert (Hy : forall d : double, getInput ports "y" d = d)
      by (intros d; unfold getInput; now rewrite Hnone).
    rewrite Hy.
    destruct ready, (getInput ports "is_truncated" (is_truncated0 u));
      reflexivity.
Qed.

(** X6: the two locals [on_tick] leaves uninitialised reach the goal when
    their ports are missing: without "is_truncated" the uninitialised flag
    decides whether a truncation file is generated, and a truncated goal
    without "distance_tolerance" is generated for the uninitialised
    tolerance. *)
Theorem on_tick_reads_uninitialised_locals ports ready u self :
  (ports !! "is_truncated" = None ->
   behavior_tree (goal_ (on_tick ports ready u self))
   = if is_truncated0 u
     then generate_xml_file nav_to_pose_truncated_xml
            (getInput ports "distance_tolerance" (distance_tolerance0 u))
     else behavior_tree (goal_ self))
  /\ (ports !! "is_truncated" = Some (PBool true) ->
      ports !! "distance_tolerance" = None ->
      behavior_tree (goal_ (on_tick ports ready u self))
      = generate_xml_file nav_to_pose_truncated_xml (distance_tolerance0 u)).
Proof.
  split.
  - intros Hnone.
    assert (Htr : getInput ports "is_truncated" (is_truncated0 u)
                  = is_truncated0 u)
      by (unfold getInput; now rewrite Hnone).
    unfold navigation.on_tick; cbv zeta. rewrite Htr.
    destruct (is_truncated0 u); on_tick_cases; reflexivity.
  - intros Htr Hnone.
    rewrite (on_tick_behavior_tree _ _ _ _ _ _ _ true Htr).
    unfold getInput. now rewrite Hnone.
Qed.

(** X7: a truncation reference outlives the goal it was generated for: after
    a truncated run, a run that is not truncated stores a goal that still
    carries the file generated for the earlier tolerance. *)
Theorem on_tick_truncation_reference_persists
    (p1 p2 : gmap string port_value) ready1 ready2 u1 u2 self (t : double) :
  p1 !! "is_truncated" = Some (PBool true) ->
  p1 !! "distance_tolerance" = Some (PDouble t) ->
  p2 !! "is_truncated" = Some (PBool false) ->
  behavior_tree
    (goal_ (on_tick p2 ready2 u2 (on_tick p1 ready1 u1 self)))
  = generate_xml_file nav_to_pose_truncated_xml t.
Proof.
  intros Htr Htol Hplain.
  rewrite (on_tick_behavior_tree _ _ _ _ _ _ _ false Hplain).
  rewrite (on_tick_behavior_tree _ _ _ _ _ _ _ true Htr).
  now rewrite (getInput_double _ _ t _ Htol).
Qed.

End GoalResolverMore.

(** ** The handlers, one outcome after the other *)

Section GoalLifecycleMore.

Import navigation lifecycle.

Variable lookupTransform : string -> string -> option TransformStamped.t.
Variable generate_xml_file : string -> double -> string.
Variable nav_to_pose_truncated_xml : string.

Local Abbreviation on_tick :=
  (navigation.on_tick lookupTransform generate_xml_file
     nav_to_pose_truncated_xml).
Local Abbreviation on_outcome :=
  (navigation.on_outcome lookupTransform generate_xml_file
     nav_to_pose_truncated_xml).
Local Abbreviation deliver :=
  (lifecycle.deliver lookupTransform generate_xml_file
     nav_to_pose_truncated_xml).

(** A handler of a continuing node is [on_tick] followed by
    [on_new_goal_received], up to the flag [on_success] raises first. *)
Lemma on_outcome_continue ports ready u self (o : Outcome) :
  will_finish_ self = false ->
  on_outcome o ports ready u self
  = (RUNNING,
     on_new_goal_received
       (on_tick ports ready u
          match o with
          | Succeeded => set_goal_updated true self
          | Aborted | Cancelled => self
          end)).
Proof.
  intros Hf.
  destruct o; cbn [navigation.on_outcome];
    unfold navigation.on_success, navigation.on_aborted,
      navigation.on_cancelled; now rewrite Hf.
Qed.

Lemma on_outcome_finish ports ready u self (o : Outcome) :
  will_finish_ self = true ->
  on_outcome o ports ready u self
  = (match o with Aborted => FAILURE | Succeeded | Cancelled => SUCCESS end,
     self).
Proof.
  intros Hf.
  destruct o; cbn [navigation.on_outcome];
    unfold navigation.on_success, navigation.on_aborted,
      navigation.on_cancelled; now rewrite Hf.
Qed.

(** [on_tick] hands no goal to the action client. *)
Lemma on_tick_dispatches ports ready u self :
  dispatches (calls (on_tick ports ready u self)) = dispatches (calls self).
Proof.
  pose proof (on_tick_calls lookupTransform generate_xml_file
                nav_to_pose_truncated_xml ports ready u self) as Hcalls.
  cbv zeta in Hcalls. rewrite Hcalls. unfold dispatches.
  rewrite !List.filter_app, !length_app.
  destruct (0 <? String.length (getInput ports "tf_frame" ""))%nat,
    (getInput ports "is_truncated" (is_truncated0 u)); cbn; lia.
Qed.

(** X8: a handler acts on the finish flag stored by the previous read of
    the ports, not on the port as it is now.  On a continuing node whose
    "will_finish" port has turned true, the outcome at hand is still
    answered with RUNNING and a new goal; the flag is stored by that run,
    and only the next outcome gets its final verdict. *)
Theorem on_outcome_finish_flag_lags ports ready u self (o o' : Outcome)
    ports' ready' u' :
  will_finish_ self = false ->
  ports !! "will_finish" = Some (PBool true) ->
  let r := on_outcome o ports ready u self in
  fst r = RUNNING
  /\ dispatches (calls (snd r)) = S (dispatches (calls self))
  /\ will_finish_ (snd r) = true
  /\ on_outcome o' ports' ready' u' (snd r)
     = (match o' with Aborted => FAILURE | Succeeded | Cancelled => SUCCESS end,
        snd r).
Proof.
  intros Hf Hport r. subst r.
  rewrite (on_outcome_continue _ _ _ _ o Hf). cbn [fst snd].
  assert (Hflag : will_finish_
                    (on_new_goal_received
                       (on_tick ports ready u
                          match o with
                          | Succeeded => set_goal_updated true self
                          | Aborted | Cancelled => self
                          end)) = true).
  { unfold on_new_goal_received, call. cbn [will_finish_].
    rewrite on_tick_will_finish. now apply getInput_bool. }
  split; [reflexivity|]. split; [|split; [exact Hflag|]].
  - unfold on_new_goal_received, call. cbn [calls]. unfold dispatches.
    rewrite List.filter_app, length_app. fold (dispatches (calls
      (on_tick ports ready u
         match o with
         | Succeeded => set_goal_updated true self
         | Aborted | Cancelled => self
         end))).
    rewrite on_tick_dispatches. destruct o; cbn; unfold dispatches; lia.
  - now apply on_outcome_finish.
Qed.

(** X9: continuous navigation does not end by itself.  On a continuing
    node, as long as no run reads a true "will_finish", every outcome is
    answered with RUNNING and exactly one new goal goes to the action
    client per outcome, Aborted and Cancelled included. *)
Theorem deliver_keeps_navigating (ds : list Delivery) self :
  will_finish_ self = false ->
  Forall (fun d => getInput (ports_then d) "will_finish" false = false) ds ->
  let r := deliver ds self in
  fst r = repeat RUNNING (length ds)
  /\ will_finish_ (snd r) = false
  /\ dispatches (calls (snd r)) = (dispatches (calls self) + length ds)%nat.
Proof.
  intros Hf Hports. cbv zeta. revert self Hf.
  induction Hports as [|d ds Hd _ IH]; intros self Hf.
  - cbn. repeat split; [exact Hf | lia].
  - cbn [lifecycle.deliver].
    rewrite (on_outcome_continue _ _ _ _ (outcome d) Hf).
    set (self' := on_new_goal_received _).
    assert (Hf' : will_finish_ self' = false).
    { subst self'. unfold on_new_goal_received, call. cbn [will_finish_].
      rewrite on_tick_will_finish.
      destruct (outcome d); cbn [will_finish_ set_goal_updated];
        rewrite Hf; exact Hd. }
    assert (Hn : dispatches (calls self') = S (dispatches (calls self))).
    { subst self'. unfold on_new_goal_received, call. cbn [calls].
      unfold dispatches at 1. rewrite List.filter_app, length_app.
      fold (dispatches (calls
        (on_tick (ports_then d) (service_ready_then d) (locals_then d)
           match outcome d with
           | Succeeded => set_goal_updated true self
           | Aborted | Cancelled => self
           end))).
      rewrite on_tick_dispatches.
      destruct (outcome d); cbn; unfold dispatches; lia. }
    destruct (IH self' Hf') as (Hst & Hfin & Hcount).
    destruct (deliver ds self') as [statuses final] eqn:Hrun.
    cbn [fst snd length repeat] in *. rewrite Hn in Hcount.
    split; [now rewrite Hst|]. split; [exact Hfin | lia].
Qed.

(** X10: nothing in the node clears [goal_updated_]: once raised it stays
    raised through every outcome, whatever the handlers read and whatever
    the collaborators answer. *)
Theorem deliver_never_clears_goal_updated (ds : list Delivery) self :
  goal_updated_ self = true ->
  goal_updated_ (snd (deliver ds self)) = true.
Proof.
  revert self. induction ds as [|d ds IH]; intros self Hup; [exact Hup|].
  cbn [lifecycle.deliver].
  destruct (on_outcome (outcome d) (ports_then d) (service_ready_then d)
              (locals_then d) self) as [status self'] eqn:Hstep.
  assert (Hup' : goal_updated_ self' = true).
  { destruct (will_finish_ self) eqn:Hf.
    - rewrite (on_outcome_finish _ _ _ _ _ Hf) in Hstep.
      now inversion Hstep; subst.
    - rewrite (on_outcome_continue _ _ _ _ _ Hf) in Hstep.
      inversion Hstep; subst. unfold on_new_goal_received, call.
      cbn [goal_updated_].
      rewrite (on_tick_goal_updated lookupTransform generate_xml_file
                 nav_to_pose_truncated_xml).
      now destruct (outcome d). }
  specialize (IH self' Hup').
  destruct (deliver ds self') as [statuses final]. exact IH.
Qed.

End GoalLifecycleMore.

(** ** More order facts about binary64 *)

Lemma SFopp_involutive (x : spec_float) : SFopp (SFopp x) = x.
Proof. destruct x as [s|s| |s m e]; cbn; now rewrite ?negb_involutive. Qed.

Lemma SFabs_opp (x : spec_float) : SFabs (SFopp x) = SFabs x.
Proof. now destruct x. Qed.

(** Negating both sides reverses a comparison. *)
Lemma SFcompare_opp (x y : spec_float) :
  SFcompare (SFopp x) (SFopp y) = SFcompare y x.
Proof.
  destruct x as [sx|sx| |sx mx ex], y as [sy|sy| |sy my ey]; cbn;
    try reflexivity;
    try (destruct sx; reflexivity); try (destruct sy; reflexivity);
    try (destruct sx, sy; reflexivity).
  rewrite (Z.compare_antisym ex ey).
  assert (Hm : Pos.compare_cont Eq my mx = CompOpp (Pos.compare_cont Eq mx my))
    by apply (Pos.compare_antisym mx my).
  rewrite Hm.
  destruct sx, sy, (ex ?= ey)%Z; cbn; rewrite ?CompOpp_involutive;
    reflexivity.
Qed.

(** [b > 5] holds exactly when [|b| > 5] and [b > 0]. *)
Lemma Double_gt_five (b : double) :
  Double.gt b Double.five
  = Double.gt (Double.abs b) Double.five && Double.gt b Double.zero.
Proof.
  destruct b as [s|s| |s m e].
  - reflexivity.
  - now destruct s.
  - reflexivity.
  - unfold Double.gt, Double.abs, SFabs, Double.zero, Double.five, SFltb.
    destruct s; cbn [SFcompare].
    + now rewrite andb_false_r.
    + now rewrite andb_true_r.
Qed.

(** [b < -5] holds exactly when [|b| > 5] and not [b > 0]. *)
Lemma Double_lt_minus_five (b : double) :
  Double.lt b (SFopp Double.five)
  = Double.gt (Double.abs b) Double.five && negb (Double.gt b Double.zero).
Proof.
  destruct b as [s|s| |s m e].
  - now destruct s.
  - now destruct s.
  - reflexivity.
  - destruct s.
    + unfold Double.lt, Double.gt, Double.abs, SFabs, SFltb.
      change (S754_finite true m e) with (SFopp (S754_finite false m e)) at 1.
      rewrite SFcompare_opp. cbn [SFcompare Double.zero negb].
      now rewrite andb_true_r.
    + unfold Double.lt, Double.gt, Double.abs, SFabs, SFltb.
      cbn [SFcompare SFopp Double.five Double.zero negb].
      now rewrite andb_false_r.
Qed.

(** Rounding treats the sign as a label: negating an operand of a product
    or the dividend of a quotient negates the result. *)
Lemma binary_round_aux_opp (s : bool) (m e : Z) (l : location) :
  binary_round_aux Double.prec Double.emax (negb s) m e l
  = SFopp (binary_round_aux Double.prec Double.emax s m e l).
Proof.
  unfold binary_round_aux.
  destruct (shr_fexp _ _ m e l) as [mrs' e'].
  destruct (shr_fexp _ _ _ e' loc_Exact) as [mrs'' e''].
  destruct (shr_m mrs''); [reflexivity| |reflexivity].
  now destruct (Z.leb e'' _).
Qed.

Lemma Double_mul_opp_l (a b : double) :
  Double.mul (SFopp a) b = SFopp (Double.mul a b).
Proof.
  unfold Double.mul.
  destruct a as [sa|sa| |sa ma ea], b as [sb|sb| |sb mb eb]; cbn [SFopp SFmul];
    rewrite <- ?negb_xorb_l; try reflexivity.
  apply binary_round_aux_opp.
Qed.

Lemma Double_div_opp_l (a b : double) :
  Double.div (SFopp a) b = SFopp (Double.div a b).
Proof.
  unfold Double.div.
  destruct a as [sa|sa| |sa ma ea], b as [sb|sb| |sb mb eb]; cbn [SFopp SFdiv];
    rewrite <- ?negb_xorb_l; try reflexivity.
  destruct (SFdiv_core_binary _ _ _ _ _ _) as [[mz ez] lz].
  apply binary_round_aux_opp.
Qed.

(** ** The bearing gate: what it publishes, what it depends on *)

Section BearingGateMore.

Import perception.

Variable atan2 : double -> double -> double.

Local Abbreviation tick := (perception.tick atan2).
Local Abbreviation yaw_of := (perception.yaw_of atan2).

(** The three ways a tick with a head detection ends, by the two
    comparisons it makes. *)
Lemma tick_head get_by_features self blackboard d ds :
  get_by_features (blackboard_get blackboard (target_ self) Detection.default)
    (confidence_ self) = d :: ds ->
  tick get_by_features self blackboard
  = if Double.gt (Double.abs (yaw_of d)) Double.five
    then (FAILURE,
          mkEffects [("direction",
                      if Double.gt (yaw_of d) Double.zero then 1%Z
                      else (-1)%Z)] [])
    else (SUCCESS, mkEffects [("direction", 0%Z)] [(d, entity_ self)]).
Proof.
  intros Hhead. unfold perception.tick. rewrite Hhead.
  change (Double.of_Z 0) with Double.zero.
  destruct (Double.gt (Double.abs (yaw_of d)) Double.five);
    [destruct (Double.gt (yaw_of d) Double.zero)|]; reflexivity.
Qed.

(** X11: with a head detection of bearing [b], the direction written is
    +1 exactly when [b > 5], -1 exactly when [b < -5], and the gate passes
    exactly when neither holds: nothing beyond 5 degrees to either side
    ever passes, and nothing within ever fails. *)
Theorem tick_direction_by_bearing get_by_features self
    (blackboard : gmap string Detection.t) d ds :
  get_by_features (blackboard_get blackboard (target_ self) Detection.default)
    (confidence_ self) = d :: ds ->
  let b := yaw_of d in
  let r := tick get_by_features self blackboard in
  (outputs (snd r) = [("direction", 1%Z)]
   <-> Double.gt b Double.five = true)
  /\ (outputs (snd r) = [("direction", (-1)%Z)]
      <-> Double.lt b (SFopp Double.five) = true)
  /\ (fst r = SUCCESS
      <-> Double.gt b Double.five = false
          /\ Double.lt b (SFopp Double.five) = false).
Proof.
  intros Hhead b r. subst r.
  rewrite (tick_head _ _ _ _ _ Hhead). fold b.
  pose proof (Double_gt_five b) as Hleft.
  pose proof (Double_lt_minus_five b) as Hright.
  destruct (Double.gt (Double.abs b) Double.five),
    (Double.gt b Double.zero); cbn [andb negb] in Hleft, Hright;
    rewrite Hleft, Hright; cbn;
    (split; [|split]); split; intros H; try discriminate H;
    try reflexivity; try (destruct H; discriminate); try (now split).
Qed.

(** X12: a bearing that is not a number passes.  When [atan2] answers NaN
    for the head detection, both comparisons are false, so the tick returns
    SUCCESS, writes direction 0 and publishes the detection. *)
Theorem tick_nan_bearing_passes get_by_features self
    (blackboard : gmap string Detection.t) d ds :
  get_by_features (blackboard_get blackboard (target_ self) Detection.default)
    (confidence_ self) = d :: ds ->
  atan2 (Point.y (Pose.position (Detection.center3d d)))
        (Point.x (Pose.position (Detection.center3d d))) = S754_nan ->
  tick get_by_features self blackboard
  = (SUCCESS, mkEffects [("direction", 0%Z)] [(d, entity_ self)]).
Proof.
  intros Hhead Hnan. rewrite (tick_head _ _ _ _ _ Hhead).
  unfold perception.yaw_of. rewrite Hnan. reflexivity.
Qed.

(** X13: the tick ends in SUCCESS or FAILURE, never in RUNNING or IDLE;
    it publishes exactly when it succeeds, and what it publishes then is the
    head detection under the name [entity_]. *)
Theorem tick_publishes_iff_success get_by_features self
    (blackboard : gmap string Detection.t) :
  let r := tick get_by_features self blackboard in
  (fst r = SUCCESS \/ fst r = FAILURE)
  /\ (fst r = FAILURE -> published (snd r) = [])
  /\ (fst r = SUCCESS ->
      exists d,
        head (get_by_features
                (blackboard_get blackboard (target_ self) Detection.default)
                (confidence_ self)) = Some d
        /\ published (snd r) = [(d, entity_ self)]).
Proof.
  cbv zeta.
  destruct (get_by_features
              (blackboard_get blackboard (target_ self) Detection.default)
              (confidence_ self)) as [|d ds] eqn:Hans.
  - unfold perception.tick. rewrite Hans. cbn.
    split; [now right|]. split; [reflexivity|discriminate].
  - rewrite (tick_head _ _ _ _ _ Hans).
    destruct (Double.gt (Double.abs (yaw_of d)) Double.five); cbn.
    + split; [now right|]. split; [reflexivity|discriminate].
    + split; [now left|]. split; [discriminate|].
      intros _. now exists d.
Qed.

(** X14: of everything the perception listener answers, only the head
    detection is looked at, and of the blackboard only the entry under
    [target_]. *)
Theorem tick_depends_on_head_only g1 g2 self
    (bb1 bb2 : gmap string Detection.t) :
  bb1 !! target_ self = bb2 !! target_ self ->
  head (g1 (blackboard_get bb1 (target_ self) Detection.default)
           (confidence_ self))
  = head (g2 (blackboard_get bb2 (target_ self) Detection.default)
             (confidence_ self)) ->
  tick g1 self bb1 = tick g2 self bb2.
Proof.
  intros Hkey Hhead. unfold perception.tick, blackboard_get in *.
  rewrite Hkey in *.
  destruct (g1 _ _) as [|d1 ds1], (g2 _ _) as [|d2 ds2]; cbn in Hhead;
    try discriminate; [reflexivity|].
  now inversion Hhead; subst.
Qed.

(** X15: left and right are mirror images.  If [atan2] answers the
    opposite angle for a second detection, as it does for the detection
    mirrored across the forward axis, the verdict is the same and the
    direction written is the opposite one. *)
Theorem tick_mirror g g' self (blackboard : gmap string Detection.t)
    d d' ds ds' :
  g (blackboard_get blackboard (target_ self) Detection.default)
    (confidence_ self) = d :: ds ->
  g' (blackboard_get blackboard (target_ self) Detection.default)
     (confidence_ self) = d' :: ds' ->
  atan2 (Point.y (Pose.position (Detection.center3d d')))
        (Point.x (Pose.position (Detection.center3d d')))
  = SFopp (atan2 (Point.y (Pose.position (Detection.center3d d)))
                 (Point.x (Pose.position (Detection.center3d d)))) ->
  fst (tick g' self blackboard) = fst (tick g self blackboard)
  /\ exists v : Z,
       outputs (snd (tick g self blackboard)) = [("direction", v)]
       /\ outputs (snd (tick g' self blackboard)) = [("direction", (- v)%Z)].
Proof.
  intros Hd Hd' Hodd.
  rewrite (tick_head _ _ _ _ _ Hd), (tick_head _ _ _ _ _ Hd').
  assert (Hyaw : yaw_of d' = SFopp (yaw_of d)).
  { unfold perception.yaw_of.
    now rewrite Hodd, Double_mul_opp_l, Double_div_opp_l. }
  rewrite Hyaw. unfold Double.abs. rewrite SFabs_opp.
  fold (Double.abs (yaw_of d)).
  destruct (Double.gt (Double.abs (yaw_of d)) Double.five) eqn:Hfar; cbn.
  - split; [reflexivity|].
    destruct (yaw_of d) as [s|s| |s m e]; try discriminate Hfar;
      destruct s; cbn; eexists; split; reflexivity.
  - split; [reflexivity|]. exists 0%Z. split; reflexivity.
Qed.

End BearingGateMore.

(** X16: the constructor activates exactly one perception pipeline: people
    detection when the port "what" holds the string "person", object
    detection for every other value and when the port is missing. *)
Theorem IsInFront_new_activation (confidence0 : double)
    (ports : gmap string port_value) :
  exists pipeline : string,
    snd (perception.IsInFront_new confidence0 ports) = [pipeline]
    /\ (ports !! "what" = Some (PString "person") ->
        pipeline = "perception_system/perception_people_detection")
    /\ (ports !! "what" <> Some (PString "person") ->
        pipeline = "perception_system/perception_object_detection").
Proof.
  unfold perception.IsInFront_new. cbv zeta.
  destruct (String.eqb (getInput ports "what" "") "person") eqn:Hwhat.
  - eexists. split; [reflexivity|]. split; [reflexivity|].
    intros Hnot. exfalso. apply Hnot. apply String.eqb_eq in Hwhat.
    unfold getInput in Hwhat.
    destruct (ports !! "what") as [[s|b|x]|]; cbn in Hwhat;
      try discriminate Hwhat. now subst.
  - eexists. split.
    + destruct (String.eqb (getInput ports "what" "") "object"); reflexivity.
    + split; [|reflexivity].
      intros Hperson. unfold getInput in Hwhat. rewrite Hperson in Hwhat.
      discriminate Hwhat.
Qed.

(** ** The further properties on concrete inputs *)

(** A frame named, with and without coordinates beside it. *)
Lemma on_tick_frame_ignores_coordinates_witness :
  navigation.on_tick Samples.lookup_answers Samples.xml_named_after_template
    Samples.template_xml Samples.ports_frame true Samples.locals
    Samples.node_at_2_3
  = navigation.on_tick Samples.lookup_answers
      Samples.xml_named_after_template Samples.template_xml
      MoreSamples.ports_frame_and_xy true Samples.locals Samples.node_at_2_3.
Proof.
  apply (on_tick_frame_ignores_coordinates Samples.lookup_answers
           Samples.xml_named_after_template Samples.template_xml
           Samples.ports_frame MoreSamples.ports_frame_and_xy).
  - vm_compute. lia.
  - intros k Hx Hy. unfold MoreSamples.ports_frame_and_xy.
    now rewrite !lookup_insert_ne by congruence.
Defined.

(** No frame and no coordinates: the goal is the origin. *)
Lemma on_tick_missing_coordinates_witness :
  let p := Pose.position
             (PoseStamped.pose
                (navigation.pose
                   (navigation.goal_
                      (navigation.on_tick Samples.lookup_fails
                         Samples.xml_named_after_template Samples.template_xml
                         MoreSamples.ports_no_coordinates true Samples.locals
                         Samples.node_at_2_3)))) in
  Point.x p = Double.zero /\ Point.y p = Double.zero.
Proof.
  destruct (on_tick_missing_coordinates Samples.lookup_fails
              Samples.xml_named_after_template Samples.template_xml
              MoreSamples.ports_no_coordinates true Samples.locals
              Samples.node_at_2_3 eq_refl) as [Hx Hy].
  split; [apply Hx | apply Hy]; reflexivity.
Defined.

(** A truncated goal with a missing tolerance, generated for the value the
    local happened to hold. *)
Lemma on_tick_reads_uninitialised_locals_witness :
  navigation.behavior_tree
    (navigation.goal_
       (navigation.on_tick Samples.lookup_fails
          Samples.xml_named_after_template Samples.template_xml
          MoreSamples.ports_truncated_no_tolerance true Samples.other_locals
          Samples.node_continuing))
  = Samples.xml_named_after_template Samples.template_xml Double.one.
Proof.
  apply (proj2 (on_tick_reads_uninitialised_locals Samples.lookup_fails
                  Samples.xml_named_after_template Samples.template_xml
                  MoreSamples.ports_truncated_no_tolerance true
                  Samples.other_locals Samples.node_continuing));
    reflexivity.
Defined.

(** A truncated run followed by a plain one. *)
Lemma on_tick_truncation_reference_persists_witness :
  navigation.behavior_tree
    (navigation.goal_
       (navigation.on_tick Samples.lookup_fails
          Samples.xml_named_after_template Samples.template_xml
          Samples.ports_xy true Samples.locals
          (navigation.on_tick Samples.lookup_fails
             Samples.xml_named_after_template Samples.template_xml
             Samples.ports_truncated true Samples.locals
             Samples.node_continuing)))
  = Samples.xml_named_after_template Samples.template_xml Samples.half.
Proof.
  apply (on_tick_truncation_reference_persists Samples.lookup_fails
           Samples.xml_named_after_template Samples.template_xml
           Samples.ports_truncated Samples.ports_xy true true Samples.locals
           Samples.locals Samples.node_continuing Samples.half);
    reflexivity.
Defined.

(** A continuing node whose port has turned to finish: Aborted is still
    answered with RUNNING, the Cancelled after it with SUCCESS. *)
Lemma on_outcome_finish_flag_lags_witness :
  let r :=
    navigation.on_aborted Samples.lookup_fails
      Samples.xml_named_after_template Samples.template_xml
      MoreSamples.ports_xy_finish true Samples.locals
      Samples.node_continuing in
  fst r = RUNNING
  /\ fst (navigation.on_cancelled Samples.lookup_fails
            Samples.xml_named_after_template Samples.template_xml
            Samples.ports_xy true Samples.locals (snd r)) = SUCCESS.
Proof.
  destruct (on_outcome_finish_flag_lags Samples.lookup_fails
              Samples.xml_named_after_template Samples.template_xml
              MoreSamples.ports_xy_finish true Samples.locals
              Samples.node_continuing navigation.Aborted navigation.Cancelled
              Samples.ports_xy true Samples.locals eq_refl eq_refl)
    as (Hrun & _ & _ & Hnext).
  split; [exact Hrun|].
  exact (f_equal fst Hnext).
Defined.

(** Succeeded, Aborted and Cancelled in a row on a continuing node. *)
Lemma deliver_keeps_navigating_witness :
  let r :=
    lifecycle.deliver Samples.lookup_answers Samples.xml_named_after_template
      Samples.template_xml MoreSamples.three_deliveries
      Samples.node_continuing in
  fst r = [RUNNING; RUNNING; RUNNING]
  /\ navigation.will_finish_ (snd r) = false
  /\ lifecycle.dispatches (navigation.calls (snd r)) = 3%nat.
Proof.
  apply (deliver_keeps_navigating Samples.lookup_answers
           Samples.xml_named_after_template Samples.template_xml
           MoreSamples.three_deliveries Samples.node_continuing eq_refl).
  repeat constructor.
Defined.

Lemma deliver_never_clears_goal_updated_witness :
  navigation.goal_updated_
    (snd (lifecycle.deliver Samples.lookup_answers
            Samples.xml_named_after_template Samples.template_xml
            MoreSamples.three_deliveries MoreSamples.node_updated))
  = true.
Proof.
  apply (deliver_never_clears_goal_updated Samples.lookup_answers
           Samples.xml_named_after_template Samples.template_xml
           MoreSamples.three_deliveries MoreSamples.node_updated eq_refl).
Defined.

(** The next double above 5 degrees is beyond the cone. *)
Lemma tick_direction_by_bearing_witness :
  let d := Samples.detection_at Double.one Double.zero in
  perception.outputs
    (snd (perception.tick (Samples.atan2_const Samples.rad_above_5deg)
            (Samples.listener [d]) Samples.gate ∅))
  = [("direction", 1%Z)].
Proof.
  intros d.
  apply (proj1 (tick_direction_by_bearing
                  (Samples.atan2_const Samples.rad_above_5deg)
                  (Samples.listener [d]) Samples.gate ∅ d [] eq_refl)).
  vm_compute. reflexivity.
Defined.

Lemma tick_nan_bearing_passes_witness :
  let d := Samples.detection_at MoreSamples.nan MoreSamples.nan in
  perception.tick (Samples.atan2_const MoreSamples.nan)
    (Samples.listener [d]) Samples.gate ∅
  = (SUCCESS, perception.mkEffects [("direction", 0%Z)] [(d, "person")]).
Proof.
  intros d.
  apply (tick_nan_bearing_passes (Samples.atan2_const MoreSamples.nan)
           (Samples.listener [d]) Samples.gate ∅ d [] eq_refl eq_refl).
Defined.

(** Two answers with the same head and different tails. *)
Lemma tick_depends_on_head_only_witness :
  perception.tick MoreSamples.atan2_is_y
    (Samples.listener [MoreSamples.detection_left]) Samples.gate ∅
  = perception.tick MoreSamples.atan2_is_y
      (Samples.listener
         [MoreSamples.detection_left; MoreSamples.detection_right])
      Samples.gate ∅.
Proof.
  apply (tick_depends_on_head_only MoreSamples.atan2_is_y
           (Samples.listener [MoreSamples.detection_left])
           (Samples.listener
              [MoreSamples.detection_left; MoreSamples.detection_right])
           Samples.gate ∅ ∅); reflexivity.
Defined.

(** Ten degrees to the left and ten degrees to the right. *)
Lemma tick_mirror_witness :
  fst (perception.tick MoreSamples.atan2_is_y
         (Samples.listener [MoreSamples.detection_right]) Samples.gate ∅)
  = fst (perception.tick MoreSamples.atan2_is_y
           (Samples.listener [MoreSamples.detection_left]) Samples.gate ∅)
  /\ exists v : Z,
       perception.outputs
         (snd (perception.tick MoreSamples.atan2_is_y
                 (Samples.listener [MoreSamples.detection_left])
                 Samples.gate ∅)) = [("direction", v)]
       /\ perception.outputs
            (snd (perception.tick MoreSamples.atan2_is_y
                    (Samples.listener [MoreSamples.detection_right])
                    Samples.gate ∅)) = [("direction", (- v)%Z)].
Proof.
  apply (tick_mirror MoreSamples.atan2_is_y
           (Samples.listener [MoreSamples.detection_left])
           (Samples.listener [MoreSamples.detection_right])
           Samples.gate ∅ MoreSamples.detection_left
           MoreSamples.detection_right [] [] eq_refl eq_refl eq_refl).
Defined.

Example tick_left_and_right :
  perception.tick MoreSamples.atan2_is_y
    (Samples.listener [MoreSamples.detection_left]) Samples.gate ∅
  = (FAILURE, perception.mkEffects [("direction", 1%Z)] [])
  /\ perception.tick MoreSamples.atan2_is_y
       (Samples.listener [MoreSamples.detection_right]) Samples.gate ∅
     = (FAILURE, perception.mkEffects [("direction", (-1)%Z)] []).
Proof. split; vm_compute; reflexivity. Qed.

(** The frame "kitchen" found at (2, 3, 1): the goal is (2, 3, 0) with the
    rotation of the transform. *)
Lemma on_tick_lookup_success_witness :
  navigation.pose
    (navigation.goal_
       (navigation.on_tick Samples.lookup_answers
          Samples.xml_named_after_template Samples.template_xml
          Samples.ports_frame true Samples.locals Samples.node_at_2_3))
  = PoseStamped.mk "map"
      (Pose.mk (Point.mk Samples.two Samples.three Double.zero)
         (Quaternion.mk Double.zero Double.zero Double.one Double.zero)).
Proof.
  apply (on_tick_lookup_success Samples.lookup_answers
           Samples.xml_named_after_template Samples.template_xml
           Samples.ports_frame true Samples.locals Samples.node_at_2_3
           Samples.kitchen_transform).
  - vm_compute. lia.
  - reflexivity.
Defined.
